(** * goji request logger: web/middleware/logger.go

    A shallow embedding of the request-logging middleware
    ([Logger], [LoggerVerbose], [loggerHandler], [printStart],
    [printHeaders], [printEnd]) together with the properties its
    specification states about the lines it prints.

    Layout: the Go library pieces the logger calls, the collaborators of
    the repository that the logger relies on, the logger itself, and then
    the theorems. *)

From Stdlib Require Import ZArith String Ascii DecimalString.
From Stdlib Require DecimalN.
From stdpp Require Import gmap strings list.

Local Open Scope Z_scope.

(** ** Strings *)

(** The one-character string holding a double quote (byte 34). *)
Definition dquote : string := String "034"%char EmptyString.

(** [s != ""] on Go strings. *)
Definition nonEmpty (s : string) : bool := negb (String.eqb s "").

(** [strings.Join]-style joining, used to describe header lines. *)
Fixpoint join (sep : string) (l : list string) : string :=
  match l with
  | [] => ""
  | [x] => x
  | x :: rest => x +:+ sep +:+ join sep rest
  end.

(** ** Go library behaviour the logger observes

    The formatting verbs of [fmt], [time.Duration.String], the clock and
    the visiting order of [range] over a map belong to the Go runtime, not
    to this package.  [%03d] and [Time.Sub] are written out below; the
    rest is collected in a record that every definition takes. *)

Definition Time := Z.      (* an instant, in nanoseconds *)
Definition Duration := Z.  (* time.Duration: int64 nanoseconds *)

Definition Millisecond : Duration := 1000000.
Definition Second : Duration := 1000 * Millisecond.

Definition minDuration : Duration := - 2 ^ 63.
Definition maxDuration : Duration := 2 ^ 63 - 1.

(** [t.Sub(u)]: the difference, saturated at the ends of int64. *)
Definition Time_Sub (t u : Time) : Duration :=
  let d := t - u in
  if d <? minDuration then minDuration
  else if maxDuration <? d then maxDuration
  else d.

Record Runtime := {
  (** what [strconv.Quote s] puts between its two quote bytes *)
  strconv_escape : string -> string;
  (** [d.String()] for a [time.Duration] *)
  Duration_String : Duration -> string;
  (** the reading returned by the n-th call of [time.Now()] *)
  time_Now_at : nat -> Time;
  (** the order in which [range] visits the entries of a header map *)
  range_Header : gmap string (list string) -> list (string * list string)
}.

(** [fmt.Sprintf("%q", s)]: [strconv.Quote]. *)
Definition Sprintf_q (rt : Runtime) (s : string) : string :=
  dquote +:+ strconv_escape rt s +:+ dquote.

(** Decimal digits of a natural number, most significant first. *)
Definition decimal (n : N) : string := NilZero.string_of_uint (N.to_uint n).

Fixpoint zeros (n : nat) : string :=
  match n with
  | O => ""
  | S n => String "0" (zeros n)
  end.

(** [fmt.Sprintf("%03d", n)]: with the zero flag the width becomes the
    precision, less one for the sign of a negative number. *)
Definition Sprintf_03d (n : Z) : string :=
  let ds := decimal (Z.abs_N n) in
  let prec := if n <? 0 then 2%nat else 3%nat in
  (if n <? 0 then "-" else "") +:+ zeros (prec - String.length ds) +:+ ds.

(** ** Colours and the line buffer *)

(** The colour variables named in logger.go. *)
Inductive color :=
| nGreen | nYellow | nRed | nBlue
| bBlack | bRed | bGreen | bYellow | bBlue | bMagenta | bCyan.

(** What has been written to a [bytes.Buffer]: each write with the colour
    it was wrapped in, if any. *)
Inductive chunk :=
| Plain (s : string)
| Colored (c : color) (s : string).

Definition Buffer := list chunk.

Definition WriteString (buf : Buffer) (s : string) : Buffer := buf ++ [Plain s].

Definition Reset (buf : Buffer) : Buffer := [].

(** Modelled from the spec: [cW] and the colour byte sequences
    (terminal.go is not among the sources).  The spec treats colour as an
    annotation carried by a substring of the line, applied when standard
    output is a terminal; [cW buf color s] writes the formatted text [s]
    to [buf] under colour [color]. *)
Definition cW (buf : Buffer) (c : color) (s : string) : Buffer :=
  buf ++ [Colored c s].

Definition chunk_text (ch : chunk) : string :=
  match ch with
  | Plain s => s
  | Colored _ s => s
  end.

(** The characters of a line, colour annotations left out: the line as
    it is printed in black and white. *)
Definition text (buf : Buffer) : string :=
  foldr (fun ch acc => chunk_text ch +:+ acc) "" buf.

(** The bytes of [buf.String()] under a way [colorize] of writing a text
    in a colour. *)
Definition render (colorize : color -> string -> string) (buf : Buffer) : string :=
  foldr (fun ch acc =>
           match ch with
           | Plain s => s +:+ acc
           | Colored c s => colorize c s +:+ acc
           end) "" buf.

(** Black and white: the colour is dropped. *)
Definition noColor (c : color) (s : string) : string := s.

(** ** Collaborators *)

(** Modelled from the spec: [web.C] and [GetReqID] (request_id.go is not
    among the sources).  The per-request context may hold a request
    identifier; [GetReqID] returns it, or the empty string when there is
    none. *)
Record C := { requestID : option string }.

Definition GetReqID (c : C) : string := default "" (requestID c).

(** [*http.Request], reduced to what the logger reads.  [URL] stands for
    the result of [r.URL.String()]. *)
Record Request := {
  Method : string;
  URL : string;
  Header : gmap string (list string);
  RemoteAddr : string
}.

(** [http.Header.Get]: the first value stored under the key, or the empty
    string.  (The key passed by the logger is already in canonical form.) *)
Definition Header_Get (h : gmap string (list string)) (key : string) : string :=
  match h !! key with
  | Some (v :: _) => v
  | _ => ""
  end.

(** The wrapped [http.ResponseWriter], seen as the status codes that have
    been written to it, oldest first. *)
Definition ResponseWriter := list Z.

(** Modelled from the spec: [mutil.WrapWriter] and the [mutil.WriterProxy]
    it returns (web/mutil is not among the sources).  The proxy records
    the first status code explicitly set on it, 0 until then, and the
    response sink observes a status exactly once, the first one set. *)
Record WriterProxy := {
  code : Z;
  wroteHeader : bool;
  inner : ResponseWriter
}.

Definition WrapWriter (w : ResponseWriter) : WriterProxy :=
  {| code := 0; wroteHeader := false; inner := w |}.

Definition Status (lw : WriterProxy) : Z := code lw.

Definition WriteHeader (lw : WriterProxy) (status : Z) : WriterProxy :=
  if wroteHeader lw then lw
  else {| code := status; wroteHeader := true; inner := inner lw ++ [status] |}.

(** An inner [http.Handler], seen from the proxy: the status codes it
    passes to [WriteHeader] while serving a request, in order.  Body
    writes are not observed by the logger and are left out. *)
Definition Handler := Request -> list Z.

Definition StatusOK : Z := 200.

(** ** Effects

    What the middleware does to the outside is kept as a trace: lines
    handed to [log.Print], clock readings, the call of the inner handler
    and status writes the middleware makes itself. *)

Inductive event :=
| Print (line : Buffer)
| Now (t : Time)
| Serve
| OwnWriteHeader (status : Z).

Record State := {
  reads : nat;            (* calls of time.Now() so far *)
  events : list event     (* oldest first *)
}.

Definition M (A : Type) : Type := State -> A * State.

Definition ret {A} (a : A) : M A := fun s => (a, s).

Definition bind {A B} (m : M A) (k : A -> M B) : M B :=
  fun s => let (a, s') := m s in k a s'.

Notation "'let*' x ':=' m 'in' k" := (bind m (fun x => k))
  (at level 10, x name, m at level 200, k at level 200,
   format "'[v' 'let*'  x  ':='  m  'in' '/' k ']'").

Definition emit (e : event) : M unit :=
  fun s => (tt, {| reads := reads s; events := events s ++ [e] |}).

(** [log.Print(buf.String())] *)
Definition log_Print (buf : Buffer) : M unit := emit (Print buf).

(** [time.Now()] *)
Definition time_Now (rt : Runtime) : M Time :=
  fun s =>
    let t := time_Now_at rt (reads s) in
    (t, {| reads := S (reads s); events := events s ++ [Now t] |}).

(** [h.ServeHTTP(lw, r)] *)
Definition ServeHTTP (h : Handler) (lw : WriterProxy) (r : Request) : M WriterProxy :=
  let* _ := emit Serve in
  ret (foldl WriteHeader lw (h r)).

Definition initial : State := {| reads := 0; events := [] |}.

(** The trace of a computation started from nothing. *)
Definition trace {A} (m : M A) : list event := events (snd (m initial)).

Definition result {A} (m : M A) : A := fst (m initial).

Definition printedLine (e : event) : option Buffer :=
  match e with
  | Print line => Some line
  | _ => None
  end.

(** The lines a computation hands to the log, in order. *)
Definition printed {A} (m : M A) : list Buffer := omap printedLine (trace m).

(** ** The logger *)

Section Logger.

Context (rt : Runtime).

(** The inner loop of [printHeaders]: [for ks, vs := range v]. *)
Fixpoint writeValues (len_v : nat) (ks : nat) (v : list string) (buf : Buffer) : Buffer :=
  match v with
  | [] => buf
  | vs :: rest =>
      let buf := WriteString buf vs in
      let buf := if (ks + 1 <? len_v)%nat then WriteString buf ", " else buf in
      writeValues len_v (ks + 1) rest buf
  end.

(** The outer loop of [printHeaders]: [for k, v := range r.Header], over
    the entries in the order [range] visits them.  The buffer is shared by
    the iterations and reset at the end of each. *)
Fixpoint rangeHeaders (reqID : string) (entries : list (string * list string))
    (buf : Buffer) : M Buffer :=
  match entries with
  | [] => ret buf
  | (k, v) :: rest =>
      let buf := if nonEmpty reqID then cW buf bBlack ("[" +:+ reqID +:+ "] ") else buf in
      let buf := WriteString buf (k +:+ ": ") in
      let buf := writeValues (length v) 0 v buf in
      let* _ := log_Print buf in
      let buf := Reset buf in
      rangeHeaders reqID rest buf
  end.

Definition printHeaders (reqID : string) (r : Request) : M unit :=
  let buf : Buffer := [] in
  let* _ := rangeHeaders reqID (range_Header rt (Header r)) buf in
  ret tt.

Definition printStart (reqID : string) (r : Request) : M unit :=
  let buf : Buffer := [] in
  let buf := if nonEmpty reqID then cW buf bBlack ("[" +:+ reqID +:+ "] ") else buf in
  let buf := WriteString buf "Started " in
  let buf := cW buf bMagenta (Method r +:+ " ") in
  let buf := cW buf nBlue (Sprintf_q rt (URL r) +:+ " ") in
  let buf := WriteString buf "from " in
  let buf :=
    let h := Header_Get (Header r) "X-Forwarded-For" in
    if nonEmpty h then WriteString buf h
    else WriteString buf (RemoteAddr r) in
  log_Print buf.

Definition printEnd (reqID : string) (w : WriterProxy) (dt : Duration) : M unit :=
  let buf : Buffer := [] in
  let buf := if nonEmpty reqID then cW buf bBlack ("[" +:+ reqID +:+ "] ") else buf in
  let buf := WriteString buf "Returning " in
  let status := Status w in
  let buf :=
    if status <? 200 then cW buf bBlue (Sprintf_03d status)
    else if status <? 300 then cW buf bGreen (Sprintf_03d status)
    else if status <? 400 then cW buf bCyan (Sprintf_03d status)
    else if status <? 500 then cW buf bYellow (Sprintf_03d status)
    else cW buf bRed (Sprintf_03d status) in
  let buf := WriteString buf " in " in
  let buf :=
    if dt <? 500 * Millisecond then cW buf nGreen (Duration_String rt dt)
    else if dt <? 5 * Second then cW buf nYellow (Duration_String rt dt)
    else cW buf nRed (Duration_String rt dt) in
  log_Print buf.

Definition loggerHandler (c : C) (h : Handler) (verbose : bool)
    (w : ResponseWriter) (r : Request) : M WriterProxy :=
  let reqID := GetReqID c in
  let* _ := printStart reqID r in
  let* _ := if verbose then printHeaders reqID r else ret tt in
  let lw := WrapWriter w in
  let* t1 := time_Now rt in
  let* lw := ServeHTTP h lw r in
  let* lw := if Status lw =? 0
             then let* _ := emit (OwnWriteHeader StatusOK) in
                  ret (WriteHeader lw StatusOK)
             else ret lw in
  let* t2 := time_Now rt in
  let* _ := printEnd reqID lw (Time_Sub t2 t1) in
  ret lw.

Definition Logger (c : C) (h : Handler) := loggerHandler c h false.

Definition LoggerVerbose (c : C) (h : Handler) := loggerHandler c h true.

End Logger.

(** ** Describing the lines

    Closed forms of what the three printers hand to the log, against
    which the properties are stated. *)

(** The request-ID segment of a line: one chunk, or nothing. *)
Definition idChunk (reqID : string) : Buffer :=
  if nonEmpty reqID then [Colored bBlack ("[" +:+ reqID +:+ "] ")] else [].

(** The address the start line ends with. *)
Definition origin (r : Request) : string :=
  let h := Header_Get (Header r) "X-Forwarded-For" in
  if nonEmpty h then h else RemoteAddr r.

Definition startLine (rt : Runtime) (reqID : string) (r : Request) : Buffer :=
  idChunk reqID ++
  [Plain "Started "; Colored bMagenta (Method r +:+ " ");
   Colored nBlue (Sprintf_q rt (URL r) +:+ " "); Plain "from "; Plain (origin r)].

Definition headerLine (reqID : string) (kv : string * list string) : Buffer :=
  writeValues (length kv.2) 0 kv.2 (idChunk reqID ++ [Plain (kv.1 +:+ ": ")]).

Definition statusColor (status : Z) : color :=
  if status <? 200 then bBlue
  else if status <? 300 then bGreen
  else if status <? 400 then bCyan
  else if status <? 500 then bYellow
  else bRed.

Definition durationColor (dt : Duration) : color :=
  if dt <? 500 * Millisecond then nGreen
  else if dt <? 5 * Second then nYellow
  else nRed.

Definition endLine (rt : Runtime) (reqID : string) (status : Z) (dt : Duration) : Buffer :=
  idChunk reqID ++
  [Plain "Returning "; Colored (statusColor status) (Sprintf_03d status);
   Plain " in "; Colored (durationColor dt) (Duration_String rt dt)].

(** The header lines of a request: none unless verbose. *)
Definition headerLines (rt : Runtime) (reqID : string) (verbose : bool)
    (r : Request) : list Buffer :=
  if verbose then headerLine reqID <$> range_Header rt (Header r) else [].

(** A chunk that is not a request-ID segment. *)
Definition notIdChunk (ch : chunk) : Prop := forall s, ch <> Colored bBlack s.

(** The request-ID segment as text. *)
Definition idPrefix (reqID : string) : string :=
  if nonEmpty reqID then "[" +:+ reqID +:+ "] " else "".

(** The text of the header line for one key and its values. *)
Definition headerText (reqID : string) (kv : string * list string) : string :=
  idPrefix reqID +:+ kv.1 +:+ ": " +:+ join ", " kv.2.

(** The proxy as the inner handler leaves it, and as the middleware
    leaves it. *)
Definition served (h : Handler) (w : ResponseWriter) (r : Request) : WriterProxy :=
  foldl WriteHeader (WrapWriter w) (h r).

Definition defaulted (lw : WriterProxy) : WriterProxy :=
  if Status lw =? 0 then WriteHeader lw StatusOK else lw.

(** The state after [n] further clock readings and the events [evs]. *)
Definition after (s : State) (n : nat) (evs : list event) : State :=
  {| reads := n + reads s; events := events s ++ evs |}.

(** ** The buckets, in the words of the specification *)

(** Status severity: below 200, 200-299, 300-399, 400-499, 500 and up. *)
Inductive StatusBucket :=
| Informational | Success | Redirect | ClientError | ServerError.

Definition inStatusBucket (b : StatusBucket) (status : Z) : Prop :=
  match b with
  | Informational => status < 200
  | Success => 200 <= status <= 299
  | Redirect => 300 <= status <= 399
  | ClientError => 400 <= status <= 499
  | ServerError => 500 <= status
  end.

Definition statusBucketColor (b : StatusBucket) : color :=
  match b with
  | Informational => bBlue
  | Success => bGreen
  | Redirect => bCyan
  | ClientError => bYellow
  | ServerError => bRed
  end.

(** Latency: below 500ms, from 500ms to below 5s, 5s and up. *)
Inductive LatencyBucket := Fast | Moderate | Slow.

Definition inLatencyBucket (b : LatencyBucket) (dt : Duration) : Prop :=
  match b with
  | Fast => dt < 500 * Millisecond
  | Moderate => 500 * Millisecond <= dt < 5 * Second
  | Slow => 5 * Second <= dt
  end.

Definition latencyBucketColor (b : LatencyBucket) : color :=
  match b with
  | Fast => nGreen
  | Moderate => nYellow
  | Slow => nRed
  end.

(** A status between 0 and 999 as three decimal digits. *)
Definition digit (d : Z) : ascii := ascii_of_N (48 + Z.to_N d).

Definition threeDigits (status : Z) : string :=
  String (digit (status / 100))
    (String (digit (status / 10 mod 10))
       (String (digit (status mod 10)) "")).

(** A runtime to run the model on: nothing to escape, durations shown in
    whole seconds or milliseconds, a clock that advances by [step] per
    reading, and maps visited in the order of [map_to_list]. *)
Definition sampleRuntimeAt (step : Duration) : Runtime := {|
  strconv_escape := fun s => s;
  Duration_String := fun d =>
    if d mod Second =? 0 then decimal (Z.to_N (d / Second)) +:+ "s"
    else decimal (Z.to_N (d / Millisecond)) +:+ "ms";
  time_Now_at := fun n => Z.of_nat n * step;
  range_Header := map_to_list
|}.

Definition sampleRuntime : Runtime := sampleRuntimeAt (120 * Millisecond).

Definition sampleRequest : Request := {|
  Method := "GET";
  URL := "/widgets?id=1";
  Header := {[ "X-Forwarded-For" := ["10.0.0.5"]; "Accept" := ["text/html"; "*/*"] ]};
  RemoteAddr := "192.0.2.7:4711"
|}.

(** ** Further descriptions *)

(** The runtime as it looks after [n] clock readings have been taken. *)
Definition shiftClock (rt : Runtime) (n : nat) : Runtime := {|
  strconv_escape := strconv_escape rt;
  Duration_String := Duration_String rt;
  time_Now_at := fun i => time_Now_at rt (n + i)%nat;
  range_Header := range_Header rt
|}.

(** The elements of a list with a separator between neighbours. *)
Fixpoint intersperse {A} (sep : A) (l : list A) : list A :=
  match l with
  | [] => []
  | [x] => [x]
  | x :: rest => x :: sep :: intersperse sep rest
  end.

(** Reading a status back from its decimal rendering: an optional minus
    sign, then decimal digits, leading zeros allowed. *)
Definition parseStatus (s : string) : option Z :=
  match s with
  | EmptyString => None
  | String a digits =>
      if Ascii.eqb a "-"
      then (fun d => - Z.of_N (N.of_uint d)) <$> NilZero.uint_of_string digits
      else (fun d => Z.of_N (N.of_uint d)) <$> NilZero.uint_of_string s
  end.

(** A request with its header map replaced. *)
Definition withHeader (r : Request) (hdr : gmap string (list string)) : Request := {|
  Method := Method r;
  URL := URL r;
  Header := hdr;
  RemoteAddr := RemoteAddr r
|}.



(** The status chunk of an end line: the one after the word Returning. *)
Fixpoint statusChunk (line : Buffer) : option string :=
  match line with
  | Plain "Returning " :: Colored _ s :: _ => Some s
  | _ :: rest => statusChunk rest
  | [] => None
  end.

(** * Properties *)

(** ** Strings and line text *)

Lemma str_app_assoc (a b c : string) : (a +:+ b) +:+ c = a +:+ b +:+ c.
Proof. induction a as [|x a IH]; [done|]. exact (f_equal (String x) IH). Qed.

Lemma str_app_nil_r (a : string) : a +:+ "" = a.
Proof. induction a as [|x a IH]; [done|]. exact (f_equal (String x) IH). Qed.

Lemma prefix_app (p s : string) : String.prefix p (p +:+ s) = true.
Proof.
  induction p as [|x p IH].
  - by destruct s.
  - change (String x p +:+ s) with (String x (p +:+ s)). cbn.
    destruct (ascii_dec x x); [apply IH | done].
Qed.

Lemma nonEmpty_true (s : string) : nonEmpty s = true <-> s <> "".
Proof. destruct s; cbn; split; intros; congruence. Qed.

Lemma text_cons (ch : chunk) (buf : Buffer) :
  text (ch :: buf) = chunk_text ch +:+ text buf.
Proof. reflexivity. Qed.

Lemma text_one (ch : chunk) : text [ch] = chunk_text ch.
Proof. apply str_app_nil_r. Qed.

Lemma text_app (a b : Buffer) : text (a ++ b) = text a +:+ text b.
Proof.
  induction a as [|ch a IH]; [done|].
  rewrite <- app_comm_cons, !text_cons, IH. by rewrite str_app_assoc.
Qed.

(** In black and white the bytes of a line are its text. *)
Lemma render_noColor (buf : Buffer) : render noColor buf = text buf.
Proof.
  induction buf as [|[s|c s] buf IH]; [done|..];
    cbn [render foldr]; fold (render noColor buf);
    by rewrite IH.
Qed.

Lemma idChunk_nonempty (X : string) :
  X <> "" -> idChunk X = [Colored bBlack ("[" +:+ X +:+ "] ")].
Proof. intros H. unfold idChunk. by apply nonEmpty_true in H as ->. Qed.

Lemma idChunk_empty : idChunk "" = [].
Proof. reflexivity. Qed.

(** ** The inner loop joins the values *)

Lemma writeValues_app (n ks : nat) (v : list string) (buf : Buffer) :
  writeValues n ks v buf = buf ++ writeValues n ks v [].
Proof.
  revert ks buf. induction v as [|x v IH]; intros ks buf; cbn [writeValues].
  - by rewrite app_nil_r.
  - unfold WriteString. destruct (ks + 1 <? n)%nat.
    + rewrite IH, (IH _ (_ ++ _)). by rewrite <- !app_assoc.
    + rewrite IH, (IH _ (_ ++ _)). by rewrite <- !app_assoc.
Qed.

Lemma writeValues_text (ks : nat) (v : list string) (buf : Buffer) :
  text (writeValues (ks + length v) ks v buf) = text buf +:+ join ", " v.
Proof.
  revert ks buf. induction v as [|x v IH]; intros ks buf.
  - cbn. by rewrite str_app_nil_r.
  - cbn [writeValues length].
    replace (ks + S (length v))%nat with ((ks + 1) + length v)%nat by lia.
    rewrite IH. unfold WriteString. destruct v as [|y v].
    + cbn [length join]. rewrite Nat.add_0_r, Nat.ltb_irrefl.
      by rewrite text_app, text_one, str_app_nil_r.
    + assert ((ks + 1 <? ks + 1 + length (y :: v))%nat = true) as ->.
      { apply Nat.ltb_lt. cbn. lia. }
      rewrite !text_app, !text_one. cbn [join chunk_text].
      by rewrite !str_app_assoc.
Qed.

Lemma headerLine_text (reqID k : string) (v : list string) :
  text (headerLine reqID (k, v)) = text (idChunk reqID) +:+ k +:+ ": " +:+ join ", " v.
Proof.
  unfold headerLine. cbn [fst snd].
  change (length v) with (0 + length v)%nat.
  rewrite writeValues_text, text_app, text_one. cbn [chunk_text].
  by rewrite !str_app_assoc.
Qed.

Lemma headerLine_head (reqID : string) (kv : string * list string) :
  headerLine reqID kv =
  idChunk reqID ++ Plain (kv.1 +:+ ": ") :: writeValues (length kv.2) 0 kv.2 [].
Proof. unfold headerLine. rewrite writeValues_app. by rewrite <- app_assoc. Qed.

(** Every chunk of the value list is plain. *)
Lemma writeValues_plain (n ks : nat) (v : list string) :
  Forall (fun ch => exists s, ch = Plain s) (writeValues n ks v []).
Proof.
  revert ks. induction v as [|x v IH]; intros ks; cbn [writeValues]; [constructor|].
  rewrite writeValues_app. unfold WriteString.
  apply Forall_app. split; [|apply IH].
  destruct (ks + 1 <? n)%nat; cbn [app]; repeat constructor; eauto.
Qed.

(** ** What each printer does to the trace *)

Lemma after_after (s : State) (n m : nat) (e1 e2 : list event) :
  after (after s n e1) m e2 = after s (m + n) (e1 ++ e2).
Proof. unfold after; cbn. f_equal; [lia | by rewrite app_assoc]. Qed.

Section Runs.

Context (rt : Runtime).

Lemma printStart_run (reqID : string) (r : Request) (s : State) :
  printStart rt reqID r s = (tt, after s 0 [Print (startLine rt reqID r)]).
Proof.
  unfold printStart, startLine, idChunk, origin, log_Print, emit, after, cW, WriteString.
  destruct (nonEmpty reqID), (nonEmpty (Header_Get _ _)); reflexivity.
Qed.

Lemma printEnd_run (reqID : string) (lw : WriterProxy) (dt : Duration) (s : State) :
  printEnd rt reqID lw dt s = (tt, after s 0 [Print (endLine rt reqID (Status lw) dt)]).
Proof.
  unfold printEnd, endLine, idChunk, statusColor, durationColor,
    log_Print, emit, after, cW, WriteString.
  destruct (nonEmpty reqID);
    destruct (Status lw <? 200), (Status lw <? 300), (Status lw <? 400),
      (Status lw <? 500), (dt <? 500 * Millisecond), (dt <? 5 * Second);
    reflexivity.
Qed.

Lemma rangeHeaders_run (reqID : string) (entries : list (string * list string))
    (s : State) :
  rangeHeaders reqID entries [] s = ([], after s 0 (Print <$> (headerLine reqID <$> entries))).
Proof.
  revert s. induction entries as [|[k v] entries IH]; intros s.
  - unfold after. cbn. rewrite app_nil_r. by destruct s.
  - cbn [rangeHeaders]. unfold bind, log_Print, emit, Reset.
    rewrite IH. unfold after. cbn [events reads fmap list_fmap].
    rewrite <- app_assoc. reflexivity.
Qed.

Lemma printHeaders_run (reqID : string) (r : Request) (s : State) :
  printHeaders rt reqID r s =
  (tt, after s 0 (Print <$> (headerLine reqID <$> range_Header rt (Header r)))).
Proof. unfold printHeaders, bind. by rewrite rangeHeaders_run. Qed.

(** The whole run of the middleware, from any state. *)
Lemma loggerHandler_run (c : C) (h : Handler) (verbose : bool)
    (w : ResponseWriter) (r : Request) (s : State) :
  let reqID := GetReqID c in
  let t1 := time_Now_at rt (reads s) in
  let t2 := time_Now_at rt (S (reads s)) in
  let lw := served h w r in
  loggerHandler rt c h verbose w r s =
  (defaulted lw,
   after s 2
     ([Print (startLine rt reqID r)] ++ (Print <$> headerLines rt reqID verbose r) ++
      [Now t1; Serve] ++
      (if Status lw =? 0 then [OwnWriteHeader StatusOK] else []) ++
      [Now t2; Print (endLine rt reqID (Status (defaulted lw)) (Time_Sub t2 t1))])).
Proof.
  intros reqID t1 t2 lw. unfold loggerHandler, bind.
  rewrite printStart_run. fold reqID.
  assert ((if verbose then printHeaders rt reqID r else ret tt)
            (after s 0 [Print (startLine rt reqID r)]) =
          (tt, after s 0 ([Print (startLine rt reqID r)] ++
                          (Print <$> headerLines rt reqID verbose r)))) as ->.
  { unfold headerLines. destruct verbose.
    - by rewrite printHeaders_run, after_after.
    - unfold ret. by rewrite fmap_nil, app_nil_r. }
  unfold time_Now, ServeHTTP, bind, emit, ret. cbn [reads events after].
  fold (served h w r). fold lw. fold t1.
  unfold defaulted. destruct (Status lw =? 0) eqn:E.
  - cbn [reads events]. fold t2. rewrite printEnd_run.
    unfold after. cbn [reads events]. by rewrite <- !app_assoc.
  - cbn [reads events]. fold t2. rewrite printEnd_run.
    unfold after. cbn [reads events]. by rewrite <- !app_assoc.
Qed.

Lemma loggerHandler_trace (c : C) (h : Handler) (verbose : bool)
    (w : ResponseWriter) (r : Request) :
  let reqID := GetReqID c in
  let t1 := time_Now_at rt 0 in
  let t2 := time_Now_at rt 1 in
  let lw := served h w r in
  trace (loggerHandler rt c h verbose w r) =
  [Print (startLine rt reqID r)] ++ (Print <$> headerLines rt reqID verbose r) ++
  [Now t1; Serve] ++
  (if Status lw =? 0 then [OwnWriteHeader StatusOK] else []) ++
  [Now t2; Print (endLine rt reqID (Status (defaulted lw)) (Time_Sub t2 t1))].
Proof. intros. unfold trace. by rewrite loggerHandler_run. Qed.

Lemma loggerHandler_result (c : C) (h : Handler) (verbose : bool)
    (w : ResponseWriter) (r : Request) :
  result (loggerHandler rt c h verbose w r) = defaulted (served h w r).
Proof. unfold result. by rewrite loggerHandler_run. Qed.

Lemma omap_printed_Print (lines : list Buffer) :
  omap printedLine (Print <$> lines) = lines.
Proof. induction lines as [|l lines IH]; [done|]. cbn. by rewrite IH. Qed.

Lemma loggerHandler_printed (c : C) (h : Handler) (verbose : bool)
    (w : ResponseWriter) (r : Request) :
  let reqID := GetReqID c in
  printed (loggerHandler rt c h verbose w r) =
  [startLine rt reqID r] ++ headerLines rt reqID verbose r ++
  [endLine rt reqID (Status (defaulted (served h w r)))
     (Time_Sub (time_Now_at rt 1) (time_Now_at rt 0))].
Proof.
  intros reqID. unfold printed. rewrite loggerHandler_trace. fold reqID.
  rewrite !omap_app, omap_printed_Print.
  destruct (Status (served h w r) =? 0); reflexivity.
Qed.

Lemma printStart_printed (reqID : string) (r : Request) :
  printed (printStart rt reqID r) = [startLine rt reqID r].
Proof. unfold printed, trace. by rewrite printStart_run. Qed.

Lemma printEnd_printed (reqID : string) (lw : WriterProxy) (dt : Duration) :
  printed (printEnd rt reqID lw dt) = [endLine rt reqID (Status lw) dt].
Proof. unfold printed, trace. by rewrite printEnd_run. Qed.

Lemma printHeaders_printed (reqID : string) (r : Request) :
  printed (printHeaders rt reqID r) = headerLine reqID <$> range_Header rt (Header r).
Proof.
  unfold printed, trace. rewrite printHeaders_run.
  apply omap_printed_Print.
Qed.

End Runs.

(** ** The two examples of the specification *)

Example example_no_request_id :
  text <$> printed (Logger sampleRuntime {| requestID := None |}
                      (fun _ => [404]) [] sampleRequest) =
  ["Started GET " +:+ dquote +:+ "/widgets?id=1" +:+ dquote +:+ " from 10.0.0.5";
   "Returning 404 in 120ms"].
Proof. reflexivity. Qed.

Example example_request_id_unset_status :
  text <$> printed (Logger (sampleRuntimeAt (6 * Second))
                      {| requestID := Some "abc123" |} (fun _ => []) [] sampleRequest) =
  ["[abc123] Started GET " +:+ dquote +:+ "/widgets?id=1" +:+ dquote +:+ " from 10.0.0.5";
   "[abc123] Returning 200 in 6s"].
Proof. reflexivity. Qed.

(** ** The shape of the printed lines *)

Lemma idChunk_text (reqID : string) : text (idChunk reqID) = idPrefix reqID.
Proof. unfold idChunk, idPrefix. destruct (nonEmpty reqID); [apply text_one | done]. Qed.

Lemma startLine_text (rt : Runtime) (reqID : string) (r : Request) :
  text (startLine rt reqID r) =
  idPrefix reqID +:+ "Started " +:+ Method r +:+ " " +:+
  dquote +:+ strconv_escape rt (URL r) +:+ dquote +:+ " " +:+ "from " +:+ origin r.
Proof.
  unfold startLine, Sprintf_q. rewrite text_app, idChunk_text.
  rewrite !text_cons. cbn [chunk_text text foldr].
  by rewrite !str_app_assoc, str_app_nil_r.
Qed.

Lemma endLine_text (rt : Runtime) (reqID : string) (status : Z) (dt : Duration) :
  text (endLine rt reqID status dt) =
  idPrefix reqID +:+ "Returning " +:+ Sprintf_03d status +:+ " in " +:+ Duration_String rt dt.
Proof.
  unfold endLine. rewrite text_app, idChunk_text.
  rewrite !text_cons. cbn [chunk_text text foldr].
  by rewrite str_app_nil_r.
Qed.

Lemma headerLine_headerText (reqID : string) (kv : string * list string) :
  text (headerLine reqID kv) = headerText reqID kv.
Proof. destruct kv as [k v]. by rewrite headerLine_text, idChunk_text. Qed.

Lemma statusColor_notId (status : Z) (s : string) :
  notIdChunk (Colored (statusColor status) s).
Proof.
  intros s'. unfold statusColor.
  repeat match goal with |- context [if ?b then _ else _] => destruct b end;
    discriminate.
Qed.

Lemma durationColor_notId (dt : Duration) (s : string) :
  notIdChunk (Colored (durationColor dt) s).
Proof.
  intros s'. unfold durationColor.
  repeat match goal with |- context [if ?b then _ else _] => destruct b end;
    discriminate.
Qed.

(** Every line of a request is the request-ID segment followed by a body
    that opens with a plain word and holds no request-ID segment. *)
Lemma printed_line_shape (rt : Runtime) (c : C) (h : Handler) (verbose : bool)
    (w : ResponseWriter) (r : Request) (line : Buffer) :
  line ∈ printed (loggerHandler rt c h verbose w r) ->
  exists first rest,
    line = idChunk (GetReqID c) ++ Plain first :: rest /\
    Forall notIdChunk rest /\
    (first = "Started " \/ first = "Returning " \/
     exists kv, kv ∈ range_Header rt (Header r) /\ first = kv.1 +:+ ": ").
Proof.
  rewrite loggerHandler_printed. cbn zeta.
  rewrite !elem_of_app, !list_elem_of_singleton.
  intros [-> | [Hh | ->]].
  - eexists _, _. split; [reflexivity|]. split; [|by left].
    repeat (apply Forall_cons_2; [intros s; discriminate|]). apply Forall_nil_2.
  - unfold headerLines in Hh. destruct verbose; [|by apply elem_of_nil in Hh].
    apply list_elem_of_fmap in Hh as (kv & -> & Hkv).
    eexists _, _. split; [apply headerLine_head|]. split.
    + eapply Forall_impl; [apply writeValues_plain|].
      intros ch [s ->] s'. discriminate.
    + right. right. eauto.
  - eexists _, _. split; [reflexivity|]. split; [|by right; left].
    apply Forall_cons_2; [apply statusColor_notId|].
    apply Forall_cons_2; [intros s; discriminate|].
    apply Forall_cons_2; [apply durationColor_notId | apply Forall_nil_2].
Qed.

Lemma loggerHandler_printed_parts (rt : Runtime) (c : C) (h : Handler)
    (verbose : bool) (w : ResponseWriter) (r : Request) :
  let reqID := GetReqID c in
  printed (loggerHandler rt c h verbose w r) =
  printed (printStart rt reqID r) ++
  (if verbose then printed (printHeaders rt reqID r) else []) ++
  printed (printEnd rt reqID (result (loggerHandler rt c h verbose w r))
             (Time_Sub (time_Now_at rt 1) (time_Now_at rt 0))).
Proof.
  intros reqID. rewrite loggerHandler_printed, loggerHandler_result.
  rewrite printStart_printed, printEnd_printed, printHeaders_printed.
  reflexivity.
Qed.

(** C1.  With a non-empty request ID X, the lines of a request are the
    start line, the header lines when verbose, and the end line; each of
    them opens with the segment "[X] " (written in the colour bBlack), so
    its text begins with "[X] ", and so do its bytes when printed in
    black and white.  All lines of the request carry this same prefix. *)
Theorem request_id_prefix (rt : Runtime) (c : C) (h : Handler) (verbose : bool)
    (w : ResponseWriter) (r : Request) (X : string) :
  GetReqID c = X -> X <> "" ->
  printed (loggerHandler rt c h verbose w r) =
    printed (printStart rt X r) ++
    (if verbose then printed (printHeaders rt X r) else []) ++
    printed (printEnd rt X (result (loggerHandler rt c h verbose w r))
               (Time_Sub (time_Now_at rt 1) (time_Now_at rt 0))) /\
  forall line, line ∈ printed (loggerHandler rt c h verbose w r) ->
    (exists rest, line = Colored bBlack ("[" +:+ X +:+ "] ") :: rest) /\
    String.prefix ("[" +:+ X +:+ "] ") (text line) = true /\
    String.prefix ("[" +:+ X +:+ "] ") (render noColor line) = true.
Proof.
  intros HX Hne. split.
  - rewrite <- HX. apply loggerHandler_printed_parts.
  - intros line Hin.
    apply printed_line_shape in Hin as (first & rest & -> & _ & _).
    rewrite HX, (idChunk_nonempty X Hne). cbn [app].
    assert (String.prefix ("[" +:+ X +:+ "] ")
              (text (Colored bBlack ("[" +:+ X +:+ "] ") :: Plain first :: rest)) = true).
    { rewrite text_cons. apply prefix_app. }
    split; [by eexists|]. split; [done|].
    by rewrite render_noColor.
Qed.

Lemma request_id_prefix_witness :
  let c := {| requestID := Some "abc123" |} in
  let lines := printed (loggerHandler sampleRuntime c (fun _ => []) true [] sampleRequest) in
  length lines = 4%nat /\
  forall line, line ∈ lines -> String.prefix "[abc123] " (text line) = true.
Proof.
  intros c lines. split; [reflexivity|].
  intros line Hin.
  apply (request_id_prefix sampleRuntime c (fun _ => []) true [] sampleRequest "abc123");
    [reflexivity | discriminate | exact Hin].
Defined.

(** C2.  With an empty request ID no line of the request has a
    request-ID segment: each line opens directly with its first plain
    word ("Started ", "Returning ", or a header key followed by ": "), and
    none of its chunks is a request-ID segment. *)
Theorem empty_request_id_no_prefix (rt : Runtime) (c : C) (h : Handler)
    (verbose : bool) (w : ResponseWriter) (r : Request) :
  GetReqID c = "" ->
  forall line, line ∈ printed (loggerHandler rt c h verbose w r) ->
    Forall notIdChunk line /\
    exists first rest,
      line = Plain first :: rest /\
      (first = "Started " \/ first = "Returning " \/
       exists kv, kv ∈ range_Header rt (Header r) /\ first = kv.1 +:+ ": ").
Proof.
  intros HX line Hin.
  apply printed_line_shape in Hin as (first & rest & -> & Hrest & Hfirst).
  rewrite HX, idChunk_empty. cbn [app]. split.
  - constructor; [intros s; discriminate | done].
  - by exists first, rest.
Qed.

Lemma empty_request_id_no_prefix_witness :
  let c := {| requestID := None |} in
  let lines := printed (loggerHandler sampleRuntime c (fun _ => [404]) true [] sampleRequest) in
  length lines = 4%nat /\
  forall line, line ∈ lines -> Forall notIdChunk line.
Proof.
  intros c lines. split; [reflexivity|].
  intros line Hin.
  apply (empty_request_id_no_prefix sampleRuntime c (fun _ => [404]) true []
           sampleRequest eq_refl line Hin).
Defined.

Lemma origin_lookup (r : Request) :
  origin r = match Header r !! "X-Forwarded-For" with
             | Some (v :: _) => if decide (v = "") then RemoteAddr r else v
             | _ => RemoteAddr r
             end.
Proof.
  unfold origin, Header_Get.
  destruct (Header r !! "X-Forwarded-For") as [[|v vs]|]; try reflexivity.
  destruct (decide (v = "")) as [->|Hv]; [reflexivity|].
  by apply nonEmpty_true in Hv as ->.
Qed.

(** C9.  The start line, after the optional request-ID segment, reads
    Started, the method, the URL between double quotes (as the %q verb
    writes it), from, and the originating address, in that order; the
    originating address is the first value stored under X-Forwarded-For
    when there is one and it is not empty, and the remote address of the
    connection otherwise.  It is the first line the middleware prints for
    a request. *)
Theorem start_line_shape (rt : Runtime) (c : C) (h : Handler) (verbose : bool)
    (w : ResponseWriter) (r : Request) :
  let reqID := GetReqID c in
  let addr := match Header r !! "X-Forwarded-For" with
              | Some (v :: _) => if decide (v = "") then RemoteAddr r else v
              | _ => RemoteAddr r
              end in
  exists line,
    printed (printStart rt reqID r) = [line] /\
    (exists rest, printed (loggerHandler rt c h verbose w r) = line :: rest) /\
    line = idChunk reqID ++
           [Plain "Started "; Colored bMagenta (Method r +:+ " ");
            Colored nBlue (dquote +:+ strconv_escape rt (URL r) +:+ dquote +:+ " ");
            Plain "from "; Plain addr] /\
    text line =
      idPrefix reqID +:+ "Started " +:+ Method r +:+ " " +:+
      dquote +:+ strconv_escape rt (URL r) +:+ dquote +:+ " " +:+
      "from " +:+ addr.
Proof.
  intros reqID addr. exists (startLine rt reqID r).
  split; [apply printStart_printed|].
  split; [rewrite loggerHandler_printed; by eexists|].
  assert (origin r = addr) as Haddr by apply origin_lookup.
  split; [|rewrite <- Haddr; apply startLine_text].
  unfold startLine, Sprintf_q. by rewrite Haddr, !str_app_assoc.
Qed.

(** C5.  The start line ends with from and an address: the first value
    of the header X-Forwarded-For when there is one and it is not empty,
    verbatim, and the remote address of the connection otherwise. *)
Theorem start_line_from (rt : Runtime) (reqID : string) (r : Request) :
  exists before addr,
    printed (printStart rt reqID r) = [before ++ [Plain "from "; Plain addr]] /\
    addr = match Header r !! "X-Forwarded-For" with
           | Some (v :: _) => if decide (v = "") then RemoteAddr r else v
           | _ => RemoteAddr r
           end.
Proof.
  eexists (idChunk reqID ++ [_; _; _]), (origin r). split.
  - rewrite printStart_printed. unfold startLine. by rewrite <- app_assoc.
  - unfold origin, Header_Get.
    destruct (Header r !! "X-Forwarded-For") as [[|v vs]|]; try reflexivity.
    destruct (decide (v = "")) as [->|Hv]; [reflexivity|].
    by apply nonEmpty_true in Hv as ->.
Qed.

(** ** The status the proxy reports *)

Lemma WriteHeader_written (lw : WriterProxy) (codes : list Z) :
  wroteHeader lw = true -> foldl WriteHeader lw codes = lw.
Proof.
  intros Hw. induction codes as [|x codes IH]; [done|].
  cbn [foldl]. unfold WriteHeader at 2. by rewrite Hw.
Qed.

Lemma served_nil (h : Handler) (w : ResponseWriter) (r : Request) :
  h r = [] -> served h w r = WrapWriter w.
Proof. unfold served. by intros ->. Qed.

Lemma served_cons (h : Handler) (w : ResponseWriter) (r : Request)
    (status : Z) (rest : list Z) :
  h r = status :: rest ->
  served h w r = {| code := status; wroteHeader := true; inner := w ++ [status] |}.
Proof. unfold served. intros ->. cbn [foldl]. by apply WriteHeader_written. Qed.

Lemma defaulted_written (lw : WriterProxy) :
  wroteHeader lw = true -> defaulted lw = lw.
Proof.
  intros Hw. unfold defaulted, WriteHeader. rewrite Hw. by destruct (Status lw =? 0).
Qed.

Lemma last_printed (rt : Runtime) (c : C) (h : Handler) (verbose : bool)
    (w : ResponseWriter) (r : Request) :
  last (printed (loggerHandler rt c h verbose w r)) =
  Some (endLine rt (GetReqID c) (Status (defaulted (served h w r)))
          (Time_Sub (time_Now_at rt 1) (time_Now_at rt 0))).
Proof.
  rewrite loggerHandler_printed. cbn zeta.
  by rewrite app_assoc, last_snoc.
Qed.

(** ** Zero padding to three digits *)

Lemma Sprintf_03d_threeDigits (status : Z) :
  0 <= status <= 999 -> Sprintf_03d status = threeDigits status.
Proof.
  intros H.
  assert (forallb (fun n => String.eqb (Sprintf_03d (Z.of_nat n)) (threeDigits (Z.of_nat n)))
            (seq 0 1000) = true) as Hall by (vm_compute; reflexivity).
  rewrite forallb_forall in Hall.
  specialize (Hall (Z.to_nat status)).
  rewrite Z2Nat.id in Hall by lia.
  apply String.eqb_eq, Hall, in_seq. lia.
Qed.

(** ** The buckets agree with the colours chosen by [printEnd] *)

Lemma statusColor_bucket (b : StatusBucket) (status : Z) :
  inStatusBucket b status -> statusColor status = statusBucketColor b.
Proof.
  unfold statusColor. destruct b; cbn; intros H;
    repeat match goal with
           | |- context [?x <? ?y] => destruct (Z.ltb_spec x y); try lia
           end; reflexivity.
Qed.

Lemma statusBucket_total (status : Z) : exists b, inStatusBucket b status.
Proof.
  destruct (Z_lt_le_dec status 200); [by exists Informational|].
  destruct (Z_lt_le_dec status 300); [exists Success; cbn; lia|].
  destruct (Z_lt_le_dec status 400); [exists Redirect; cbn; lia|].
  destruct (Z_lt_le_dec status 500); [exists ClientError; cbn; lia|].
  by exists ServerError.
Qed.

Lemma statusBucket_unique (b b' : StatusBucket) (status : Z) :
  inStatusBucket b status -> inStatusBucket b' status -> b = b'.
Proof. destruct b, b'; cbn; intros; first [reflexivity | lia]. Qed.

Lemma statusBucketColor_inj (b b' : StatusBucket) :
  statusBucketColor b = statusBucketColor b' -> b = b'.
Proof. destruct b, b'; cbn; intros; first [reflexivity | discriminate]. Qed.

Lemma durationColor_bucket (b : LatencyBucket) (dt : Duration) :
  inLatencyBucket b dt -> durationColor dt = latencyBucketColor b.
Proof.
  unfold durationColor, inLatencyBucket, Second, Millisecond.
  destruct b; intros H;
    repeat match goal with
           | |- context [?x <? ?y] => destruct (Z.ltb_spec x y); try lia
           end; reflexivity.
Qed.

Lemma latencyBucket_total (dt : Duration) : exists b, inLatencyBucket b dt.
Proof.
  destruct (Z_lt_le_dec dt (500 * Millisecond)); [by exists Fast|].
  destruct (Z_lt_le_dec dt (5 * Second)); [by exists Moderate | by exists Slow].
Qed.

Lemma latencyBucket_unique (b b' : LatencyBucket) (dt : Duration) :
  inLatencyBucket b dt -> inLatencyBucket b' dt -> b = b'.
Proof.
  destruct b, b'; cbn; unfold Second, Millisecond; intros;
    first [reflexivity | lia].
Qed.

Lemma latencyBucketColor_inj (b b' : LatencyBucket) :
  latencyBucketColor b = latencyBucketColor b' -> b = b'.
Proof. destruct b, b'; cbn; intros; first [reflexivity | discriminate]. Qed.

(** ** Status and duration on the end line *)

(** C3.  When the inner handler sets no status, the proxy still shows 0
    after it returns; the middleware then writes 200 itself, and the end
    line, the last line printed, reports 200. *)
Theorem unset_status_reports_200 (rt : Runtime) (c : C) (h : Handler)
    (verbose : bool) (w : ResponseWriter) (r : Request) :
  h r = [] ->
  Status (served h w r) = 0 /\
  OwnWriteHeader 200 ∈ trace (loggerHandler rt c h verbose w r) /\
  Status (result (loggerHandler rt c h verbose w r)) = 200 /\
  exists dt line,
    last (printed (loggerHandler rt c h verbose w r)) = Some line /\
    line = idChunk (GetReqID c) ++
           [Plain "Returning "; Colored bGreen "200"; Plain " in ";
            Colored (durationColor dt) (Duration_String rt dt)] /\
    text line =
      idPrefix (GetReqID c) +:+ "Returning " +:+ "200" +:+ " in " +:+
      Duration_String rt dt.
Proof.
  intros Hh. pose proof (served_nil h w r Hh) as Hs.
  assert (Status (defaulted (served h w r)) = 200) as Hd by (by rewrite Hs).
  split; [by rewrite Hs|]. split.
  { rewrite loggerHandler_trace. cbn zeta. rewrite Hs.
    rewrite !elem_of_app. right. right. right. left. cbn. by left. }
  split; [by rewrite loggerHandler_result|].
  eexists _, _. split; [apply last_printed|]. rewrite Hd.
  split; [reflexivity|]. apply endLine_text.
Qed.

Lemma unset_status_reports_200_witness :
  let run := loggerHandler sampleRuntime {| requestID := Some "abc123" |}
               (fun _ => []) false [] sampleRequest in
  Status (result run) = 200 /\
  OwnWriteHeader 200 ∈ trace run.
Proof.
  intros run.
  destruct (unset_status_reports_200 sampleRuntime {| requestID := Some "abc123" |}
              (fun _ => []) false [] sampleRequest eq_refl) as (_ & Hown & Hst & _).
  split; [exact Hst | exact Hown].
Defined.

(** C4.  When the first status the inner handler sets is S, the end line
    reports S as %03d writes it, which for S from 0 to 999 is S in three
    digits with leading zeros, in the colour of the one bucket S falls in:
    below 200, 200-299, 300-399, 400-499, 500 and up; the five buckets
    have five different colours. *)
Theorem set_status_reported (rt : Runtime) (c : C) (h : Handler)
    (verbose : bool) (w : ResponseWriter) (r : Request)
    (status : Z) (rest : list Z) :
  h r = status :: rest ->
  Status (result (loggerHandler rt c h verbose w r)) = status /\
  (exists b,
     inStatusBucket b status /\
     (forall b', inStatusBucket b' status -> b' = b) /\
     exists dt line,
       last (printed (loggerHandler rt c h verbose w r)) = Some line /\
       line = idChunk (GetReqID c) ++
              [Plain "Returning "; Colored (statusBucketColor b) (Sprintf_03d status);
               Plain " in "; Colored (durationColor dt) (Duration_String rt dt)] /\
       text line =
         idPrefix (GetReqID c) +:+ "Returning " +:+ Sprintf_03d status +:+ " in " +:+
         Duration_String rt dt) /\
  (0 <= status <= 999 -> Sprintf_03d status = threeDigits status) /\
  (forall b1 b2, statusBucketColor b1 = statusBucketColor b2 -> b1 = b2).
Proof.
  intros Hh. pose proof (served_cons h w r status rest Hh) as Hs.
  assert (defaulted (served h w r) = served h w r) as Hd
    by (apply defaulted_written; by rewrite Hs).
  assert (Status (defaulted (served h w r)) = status) as Hst
    by (rewrite Hd; by rewrite Hs).
  split; [by rewrite loggerHandler_result|].
  split; [|split; [apply Sprintf_03d_threeDigits | apply statusBucketColor_inj]].
  destruct (statusBucket_total status) as [b Hb]. exists b.
  split; [done|]. split; [intros b' Hb'; by eapply statusBucket_unique|].
  eexists _, _. split; [apply last_printed|]. rewrite Hst.
  split; [|apply endLine_text].
  unfold endLine. by rewrite (statusColor_bucket b status Hb).
Qed.

Lemma set_status_reported_witness :
  let run := loggerHandler sampleRuntime {| requestID := None |}
               (fun _ => [404; 500]) false [] sampleRequest in
  Status (result run) = 404 /\
  Sprintf_03d 404 = "404" /\ Sprintf_03d 7 = "007".
Proof.
  intros run.
  destruct (set_status_reported sampleRuntime {| requestID := None |}
              (fun _ => [404; 500]) false [] sampleRequest 404 [500] eq_refl)
    as (Hst & _).
  split; [exact Hst | split; reflexivity].
Defined.

(** C8.  The duration on the end line is written in the colour of the
    one latency bucket it falls in: fast below 500 milliseconds, moderate
    from 500 milliseconds to below 5 seconds, slow from 5 seconds on; the
    three buckets have three different colours. *)
Theorem duration_colour (rt : Runtime) (c : C) (h : Handler) (verbose : bool)
    (w : ResponseWriter) (r : Request) :
  let dt := Time_Sub (time_Now_at rt 1) (time_Now_at rt 0) in
  (exists b,
     inLatencyBucket b dt /\
     (forall b', inLatencyBucket b' dt -> b' = b) /\
     exists before,
       last (printed (loggerHandler rt c h verbose w r)) =
       Some (before ++ [Plain " in ";
                        Colored (latencyBucketColor b) (Duration_String rt dt)])) /\
  (forall (reqID : string) (lw : WriterProxy) (d : Duration) (b : LatencyBucket),
     inLatencyBucket b d ->
     exists before,
       printed (printEnd rt reqID lw d) =
       [before ++ [Plain " in "; Colored (latencyBucketColor b) (Duration_String rt d)]]) /\
  (forall b1 b2, latencyBucketColor b1 = latencyBucketColor b2 -> b1 = b2).
Proof.
  intros dt. split; [|split; [|apply latencyBucketColor_inj]].
  - destruct (latencyBucket_total dt) as [b Hb]. exists b.
    split; [done|]. split; [intros b' Hb'; by eapply latencyBucket_unique|].
    eexists (idChunk _ ++ [_; _]). rewrite last_printed. fold dt.
    unfold endLine. by rewrite (durationColor_bucket b dt Hb), <- app_assoc.
  - intros reqID lw d b Hb. eexists (idChunk _ ++ [_; _]).
    rewrite printEnd_printed. unfold endLine.
    by rewrite (durationColor_bucket b d Hb), <- app_assoc.
Qed.

(** The middleware's own status write, whenever it happens, is a write of
    200 made while the proxy shows 0. *)
Lemma own_write_only_when_unset (rt : Runtime) (c : C) (h : Handler)
    (verbose : bool) (w : ResponseWriter) (r : Request) (st : Z) :
  OwnWriteHeader st ∈ trace (loggerHandler rt c h verbose w r) ->
  st = 200 /\ Status (served h w r) = 0.
Proof.
  rewrite loggerHandler_trace. cbn zeta.
  rewrite !elem_of_app, list_elem_of_fmap.
  intros [Hin | [(l & Hl & _) | [Hin | [Hin | Hin]]]]; try discriminate.
  - repeat (apply elem_of_cons in Hin as [Hin | Hin]; [discriminate|]).
    by apply elem_of_nil in Hin.
  - repeat (apply elem_of_cons in Hin as [Hin | Hin]; [discriminate|]).
    by apply elem_of_nil in Hin.
  - destruct (Status (served h w r) =? 0) eqn:E; [|by apply elem_of_nil in Hin].
    apply list_elem_of_singleton in Hin. apply Z.eqb_eq in E.
    injection Hin as ->. by split.
  - repeat (apply elem_of_cons in Hin as [Hin | Hin]; [discriminate|]).
    by apply elem_of_nil in Hin.
Qed.

(** C10.  The middleware writes a status itself only when the proxy
    still shows 0 after the handler, and then it writes 200.  When the
    first status the handler sets is a non-zero S, the middleware makes no
    status write: the proxy it returns is the one the handler left, its
    status is S, and the wrapped writer has received S and nothing more. *)
Theorem handler_status_untouched (rt : Runtime) (c : C) (h : Handler)
    (verbose : bool) (w : ResponseWriter) (r : Request)
    (status : Z) (rest : list Z) :
  h r = status :: rest -> status <> 0 ->
  (forall h' st,
     OwnWriteHeader st ∈ trace (loggerHandler rt c h' verbose w r) ->
     st = 200 /\ Status (served h' w r) = 0) /\
  (forall st, OwnWriteHeader st ∉ trace (loggerHandler rt c h verbose w r)) /\
  result (loggerHandler rt c h verbose w r) = served h w r /\
  Status (result (loggerHandler rt c h verbose w r)) = status /\
  inner (result (loggerHandler rt c h verbose w r)) = w ++ [status].
Proof.
  intros Hh Hne. pose proof (served_cons h w r status rest Hh) as Hs.
  assert (defaulted (served h w r) = served h w r) as Hd
    by (apply defaulted_written; by rewrite Hs).
  split; [intros h' st; apply own_write_only_when_unset|].
  rewrite loggerHandler_result, Hd. split; [|by rewrite Hs].
  intros st Hin. apply own_write_only_when_unset in Hin as [_ Hz].
  rewrite Hs in Hz. by apply Hne.
Qed.

Lemma handler_status_untouched_witness :
  let run := loggerHandler sampleRuntime {| requestID := None |}
               (fun _ => [404]) true [] sampleRequest in
  Status (result run) = 404 /\ inner (result run) = [404] /\
  forall st, OwnWriteHeader st ∉ trace run.
Proof.
  intros run.
  destruct (handler_status_untouched sampleRuntime {| requestID := None |}
              (fun _ => [404]) true [] sampleRequest 404 [] eq_refl ltac:(discriminate))
    as (_ & Hown & _ & Hst & Hin).
  split; [exact Hst | split; [exact Hin | exact Hown]].
Defined.

(** ** Header lines *)

(** C6.  When [range] visits every entry of the header map once, the
    verbose middleware prints, between the start line and the end line,
    one line per key of the map: as many lines as there are keys, and for
    each key a line that reads the key, a colon and the key's values in
    their order, separated by comma and space.  The non-verbose
    middleware prints the start line and the end line only. *)
Theorem header_lines (rt : Runtime) (c : C) (h : Handler)
    (w : ResponseWriter) (r : Request) :
  range_Header rt (Header r) ≡ₚ map_to_list (Header r) ->
  let reqID := GetReqID c in
  let dt := Time_Sub (time_Now_at rt 1) (time_Now_at rt 0) in
  let lines := printed (printHeaders rt reqID r) in
  printed (LoggerVerbose rt c h w r) =
    printed (printStart rt reqID r) ++ lines ++
    printed (printEnd rt reqID (result (LoggerVerbose rt c h w r)) dt) /\
  length lines = size (Header r) /\
  (forall k v, Header r !! k = Some v ->
     exists line, line ∈ lines /\
       text line = idPrefix reqID +:+ k +:+ ": " +:+ join ", " v) /\
  text <$> lines ≡ₚ headerText reqID <$> map_to_list (Header r) /\
  printed (Logger rt c h w r) =
    printed (printStart rt reqID r) ++
    printed (printEnd rt reqID (result (Logger rt c h w r)) dt).
Proof.
  intros Hperm reqID dt lines.
  assert (lines = headerLine reqID <$> range_Header rt (Header r)) as Hlines
    by apply printHeaders_printed.
  split; [apply (loggerHandler_printed_parts rt c h true)|].
  split; [by rewrite Hlines, length_fmap, Hperm, length_map_to_list|].
  split.
  { intros k v Hkv. exists (headerLine reqID (k, v)). split.
    - rewrite Hlines. apply list_elem_of_fmap. exists (k, v). split; [done|].
      rewrite Hperm. by apply elem_of_map_to_list.
    - by rewrite headerLine_text, idChunk_text. }
  split.
  { rewrite Hlines, <- list_fmap_compose, Hperm.
    erewrite list_fmap_ext; [reflexivity|].
    intros i kv _. apply headerLine_headerText. }
  apply (loggerHandler_printed_parts rt c h false).
Qed.

Lemma header_lines_witness :
  let c := {| requestID := Some "abc123" |} in
  let lines := printed (printHeaders sampleRuntime "abc123" sampleRequest) in
  length lines = 2%nat /\
  text <$> lines = ["[abc123] Accept: text/html, */*";
                    "[abc123] X-Forwarded-For: 10.0.0.5"] /\
  length (printed (Logger sampleRuntime c (fun _ => []) [] sampleRequest)) = 2%nat.
Proof.
  intros c lines.
  destruct (header_lines sampleRuntime c (fun _ => []) [] sampleRequest
              (reflexivity _)) as (_ & Hlen & _).
  split; [exact Hlen | split; reflexivity].
Defined.

(** ** The timed window *)







(** * Further properties of the logger *)

(** ** Header lines, chunk by chunk *)

Lemma writeValues_intersperse (ks : nat) (v : list string) (buf : Buffer) :
  writeValues (ks + length v) ks v buf = buf ++ intersperse (Plain ", ") (Plain <$> v).
Proof.
  revert ks buf. induction v as [|x v IH]; intros ks buf.
  - cbn. by rewrite app_nil_r.
  - cbn [writeValues length].
    replace (ks + S (length v))%nat with ((ks + 1) + length v)%nat by lia.
    rewrite IH. unfold WriteString. destruct v as [|y v].
    + cbn [length]. rewrite Nat.add_0_r, Nat.ltb_irrefl. cbn. by rewrite app_nil_r.
    + assert ((ks + 1 <? ks + 1 + length (y :: v))%nat = true) as ->.
      { apply Nat.ltb_lt. cbn. lia. }
      cbn [fmap list_fmap intersperse]. by rewrite <- !app_assoc.
Qed.

(** X1.  [printHeaders] prints, for each entry that [range] visits and in
    that order, one line made of the request-ID segment, the key followed
    by a colon and a space, and the values with one separator between
    neighbours: no separator after the last value, nothing for an empty
    value list, and nothing left over from the line before. *)
Theorem header_lines_closed_form (rt : Runtime) (reqID : string) (r : Request) :
  printed (printHeaders rt reqID r) =
  (fun kv => idChunk reqID ++
             Plain (kv.1 +:+ ": ") :: intersperse (Plain ", ") (Plain <$> kv.2))
    <$> range_Header rt (Header r).
Proof.
  rewrite printHeaders_printed. apply list_fmap_ext. intros i [k v] _.
  unfold headerLine. cbn [fst snd].
  change (length v) with (0 + length v)%nat.
  by rewrite writeValues_intersperse, <- app_assoc.
Qed.

(** ** Requests one after another *)

(** X2.  The middleware keeps nothing from one request to the next: run
    from any state it leaves the events already there in place and adds
    what it would do on its own with the clock read on from where it
    stands, taking two readings.  Two requests handled one after the
    other give the trace of the first followed by the trace of the
    second. *)
Theorem requests_log_independently (rt : Runtime)
    (c1 c2 : C) (h1 h2 : Handler) (v1 v2 : bool)
    (w1 w2 : ResponseWriter) (r1 r2 : Request) :
  (forall s,
     let out := loggerHandler rt c2 h2 v2 w2 r2 s in
     events (snd out) =
       events s ++ trace (loggerHandler (shiftClock rt (reads s)) c2 h2 v2 w2 r2) /\
     reads (snd out) = (2 + reads s)%nat /\
     fst out = result (loggerHandler (shiftClock rt (reads s)) c2 h2 v2 w2 r2)) /\
  let both :=
    let* _ := loggerHandler rt c1 h1 v1 w1 r1 in
    loggerHandler rt c2 h2 v2 w2 r2 in
  trace both =
    trace (loggerHandler rt c1 h1 v1 w1 r1) ++
    trace (loggerHandler (shiftClock rt 2) c2 h2 v2 w2 r2) /\
  result both = result (loggerHandler (shiftClock rt 2) c2 h2 v2 w2 r2).
Proof.
  assert (forall s,
     let out := loggerHandler rt c2 h2 v2 w2 r2 s in
     events (snd out) =
       events s ++ trace (loggerHandler (shiftClock rt (reads s)) c2 h2 v2 w2 r2) /\
     reads (snd out) = (2 + reads s)%nat /\
     fst out = result (loggerHandler (shiftClock rt (reads s)) c2 h2 v2 w2 r2)) as Hany.
  { intros s out. subst out. rewrite loggerHandler_run.
    unfold trace, result. rewrite loggerHandler_run.
    cbn [fst snd events reads after initial app].
    change (time_Now_at (shiftClock rt (reads s)) 0)
      with (time_Now_at rt (reads s + 0)).
    change (time_Now_at (shiftClock rt (reads s)) 1)
      with (time_Now_at rt (reads s + 1)).
    rewrite Nat.add_0_r, Nat.add_1_r.
    split; [reflexivity|]. split; reflexivity. }
  split; [exact Hany|].
  cbn zeta. unfold trace at 1, result at 1, bind.
  destruct (loggerHandler rt c1 h1 v1 w1 r1 initial) as [lw1 s1] eqn:E1.
  destruct (Hany s1) as (Hev & _ & Hres).
  assert (reads s1 = 2%nat /\ events s1 = trace (loggerHandler rt c1 h1 v1 w1 r1))
    as [Hr Ht].
  { unfold trace. rewrite E1. rewrite loggerHandler_run in E1.
    injection E1 as _ <-. by split. }
  rewrite Hr in Hev, Hres. rewrite Ht in Hev. by split.
Qed.

(** ** What the request ID and the verbose switch change *)

Lemma headerLine_idChunk (reqID : string) (kv : string * list string) :
  headerLine reqID kv = idChunk reqID ++ headerLine "" kv.
Proof.
  unfold headerLine. rewrite idChunk_empty.
  rewrite writeValues_app, (writeValues_app _ _ _ ([] ++ _)).
  by rewrite <- !app_assoc.
Qed.

(** X3.  The request ID changes nothing on a line but its first segment:
    the lines printed for a request under an ID are, one for one, the
    lines printed for it without an ID, each with the ID segment put in
    front. *)
Theorem request_id_only_prefixes (rt : Runtime) (c c0 : C) (h : Handler)
    (verbose : bool) (w : ResponseWriter) (r : Request) :
  GetReqID c0 = "" ->
  printed (loggerHandler rt c h verbose w r) =
    (fun line => idChunk (GetReqID c) ++ line)
      <$> printed (loggerHandler rt c0 h verbose w r) /\
  text <$> printed (loggerHandler rt c h verbose w r) =
    (fun line => idPrefix (GetReqID c) +:+ text line)
      <$> printed (loggerHandler rt c0 h verbose w r).
Proof.
  intros H0.
  assert (printed (loggerHandler rt c h verbose w r) =
          (fun line => idChunk (GetReqID c) ++ line)
            <$> printed (loggerHandler rt c0 h verbose w r)) as Heq.
  { rewrite !loggerHandler_printed. cbn zeta. rewrite H0.
    rewrite !fmap_app. unfold headerLines. f_equal. f_equal.
    destruct verbose; [|reflexivity].
    rewrite <- list_fmap_compose. apply list_fmap_ext.
    intros i kv _. apply headerLine_idChunk. }
  split; [exact Heq|].
  rewrite Heq, <- list_fmap_compose. apply list_fmap_ext.
  intros i line _. cbn. by rewrite text_app, idChunk_text.
Qed.

Lemma request_id_only_prefixes_witness :
  let c := {| requestID := Some "abc123" |} in
  let c0 := {| requestID := None |} in
  text <$> printed (loggerHandler sampleRuntime c (fun _ => [404]) true [] sampleRequest) =
  (fun line => "[abc123] " +:+ text line)
    <$> printed (loggerHandler sampleRuntime c0 (fun _ => [404]) true [] sampleRequest).
Proof.
  intros c c0.
  exact (proj2 (request_id_only_prefixes sampleRuntime c c0 (fun _ => [404]) true []
                  sampleRequest eq_refl)).
Defined.

(** X4.  The verbose switch touches neither the response nor the start
    and end lines: [Logger] and [LoggerVerbose] leave the same proxy
    behind, and the verbose lines are the two lines of [Logger] with the
    header lines in between. *)
Theorem verbose_only_adds_header_lines (rt : Runtime) (c : C) (h : Handler)
    (w : ResponseWriter) (r : Request) :
  result (LoggerVerbose rt c h w r) = result (Logger rt c h w r) /\
  exists first final,
    printed (Logger rt c h w r) = [first; final] /\
    printed (LoggerVerbose rt c h w r) =
      first :: printed (printHeaders rt (GetReqID c) r) ++ [final].
Proof.
  unfold Logger, LoggerVerbose. rewrite !loggerHandler_result. split; [done|].
  eexists _, _. rewrite !loggerHandler_printed, printHeaders_printed.
  split; reflexivity.
Qed.

(** X5.  When the request has no headers and [range] visits nothing on
    an empty map, the verbose middleware does exactly what the plain one
    does. *)
Theorem verbose_without_headers (rt : Runtime) (c : C) (h : Handler)
    (w : ResponseWriter) (r : Request) :
  Header r = ∅ ->
  range_Header rt (Header r) ≡ₚ map_to_list (Header r) ->
  trace (LoggerVerbose rt c h w r) = trace (Logger rt c h w r).
Proof.
  intros He Hperm. rewrite He, map_to_list_empty in Hperm.
  apply Permutation_nil_r in Hperm.
  unfold Logger, LoggerVerbose. rewrite !loggerHandler_trace. cbn zeta.
  unfold headerLines. rewrite He in *. by rewrite Hperm.
Qed.

Lemma verbose_without_headers_witness :
  let r := withHeader sampleRequest ∅ in
  trace (LoggerVerbose sampleRuntime {| requestID := None |} (fun _ => []) [] r) =
  trace (Logger sampleRuntime {| requestID := None |} (fun _ => []) [] r).
Proof.
  intros r.
  apply (verbose_without_headers sampleRuntime {| requestID := None |} (fun _ => []) [] r);
    reflexivity.
Defined.

(** ** The status that reaches the client *)

(** X6.  For an inner handler that returns and deals with the response
    through [WriteHeader] calls only, the wrapped writer has, after the
    middleware, received exactly one status from this request: the first
    one the handler set, or 200 when it set none; the proxy shows a header
    as written, and the end line reports that same status. *)
Theorem exactly_one_status_written (rt : Runtime) (c : C) (h : Handler)
    (verbose : bool) (w : ResponseWriter) (r : Request) :
  let st := match h r with [] => 200 | first :: _ => first end in
  let lw := result (loggerHandler rt c h verbose w r) in
  inner lw = w ++ [st] /\
  wroteHeader lw = true /\
  Status lw = st /\
  (last (printed (loggerHandler rt c h verbose w r)) ≫= statusChunk) =
    Some (Sprintf_03d st).
Proof.
  intros st lw.
  assert (lw = {| code := st; wroteHeader := true; inner := w ++ [st] |}) as Hlw.
  { subst lw st. rewrite loggerHandler_result.
    destruct (h r) as [|first rest] eqn:Hh.
    - by rewrite (served_nil h w r Hh).
    - rewrite (served_cons h w r first rest Hh). by apply defaulted_written. }
  rewrite Hlw. cbn [inner wroteHeader Status code]. repeat split.
  rewrite last_printed, <- (loggerHandler_result rt c h verbose w r).
  fold lw. rewrite Hlw. cbn [Status code mbind option_bind].
  unfold endLine, idChunk. by destruct (nonEmpty (GetReqID c)).
Qed.

(** ** Reading the status back from the end line *)

Lemma to_uint_not_Nil (n : N) : N.to_uint n <> Decimal.Nil.
Proof.
  intros H. pose proof (DecimalN.Unsigned.of_to n) as Hn. rewrite H in Hn.
  cbn in Hn. subst n. discriminate H.
Qed.

Lemma decimal_parse (n : N) :
  decimal n <> "" /\ NilEmpty.uint_of_string (decimal n) = Some (N.to_uint n).
Proof.
  pose proof (NilZero.usu (N.to_uint n) (to_uint_not_Nil n)) as H.
  fold (decimal n) in H. unfold NilZero.uint_of_string in H.
  destruct (decimal n); [discriminate H | by split].
Qed.

Lemma zeros_parse (k : nat) (s : string) (d : Decimal.uint) :
  NilEmpty.uint_of_string s = Some d ->
  exists d', NilEmpty.uint_of_string (zeros k +:+ s) = Some d' /\
             N.of_uint d' = N.of_uint d.
Proof.
  intros Hs. induction k as [|k (d' & Hd' & Hn)]; [by exists d|].
  exists (Decimal.D0 d'). split; [|exact Hn].
  change (zeros (S k) +:+ s) with (String "0" (zeros k +:+ s)).
  cbn [NilEmpty.uint_of_string]. by rewrite Hd'.
Qed.

Lemma minus_not_digit (s : string) :
  NilEmpty.uint_of_string (String "-" s) = None.
Proof. cbn. by destruct (NilEmpty.uint_of_string s). Qed.

Lemma padded_parse (k : nat) (n : N) :
  parseStatus (zeros k +:+ decimal n) = Some (Z.of_N n) /\
  exists d, NilZero.uint_of_string (zeros k +:+ decimal n) = Some d /\ N.of_uint d = n.
Proof.
  destruct (decimal_parse n) as [Hne Hp].
  destruct (zeros_parse k _ _ Hp) as (d' & Hd' & Hn).
  rewrite DecimalN.Unsigned.of_to in Hn.
  assert (NilZero.uint_of_string (zeros k +:+ decimal n) = Some d') as Hz.
  { unfold NilZero.uint_of_string.
    destruct (zeros k +:+ decimal n) eqn:E; [|done].
    destruct k; [by destruct (decimal n) | discriminate E]. }
  split; [|by exists d'].
  unfold parseStatus. destruct (zeros k +:+ decimal n) as [|a t] eqn:E.
  { discriminate Hz. }
  destruct (Ascii.eqb_spec a "-") as [->|_].
  - by rewrite minus_not_digit in Hd'.
  - rewrite Hz. cbn. by rewrite Hn.
Qed.

Lemma parseStatus_Sprintf_03d (status : Z) :
  parseStatus (Sprintf_03d status) = Some status.
Proof.
  unfold Sprintf_03d. destruct (Z.ltb_spec status 0) as [Hneg|Hpos].
  - change ("-" +:+ ?s) with (String "-" s).
    destruct (padded_parse (2 - String.length (decimal (Z.abs_N status)))
                (Z.abs_N status)) as (_ & d & Hd & Hn).
    unfold parseStatus. rewrite Ascii.eqb_refl, Hd. cbn.
    rewrite Hn, N2Z.inj_abs_N. f_equal. lia.
  - change ("" +:+ ?s) with s.
    destruct (padded_parse (3 - String.length (decimal (Z.abs_N status)))
                (Z.abs_N status)) as (-> & _).
    rewrite N2Z.inj_abs_N. f_equal. lia.
Qed.

(** X7.  The status can be read back from the end line: the chunk after
    the word Returning, read as a decimal number with its sign, is the
    status of the proxy, whatever that status is (below 100, above 999 or
    negative included).  Two different statuses are therefore never
    printed alike. *)
Theorem status_read_back (rt : Runtime) (reqID : string) (lw : WriterProxy)
    (dt : Duration) :
  (exists line,
     printed (printEnd rt reqID lw dt) = [line] /\
     (statusChunk line ≫= parseStatus) = Some (Status lw)) /\
  forall lw' : WriterProxy,
    Sprintf_03d (Status lw) = Sprintf_03d (Status lw') -> Status lw = Status lw'.
Proof.
  split.
  - exists (endLine rt reqID (Status lw) dt). split; [apply printEnd_printed|].
    assert (statusChunk (endLine rt reqID (Status lw) dt) =
            Some (Sprintf_03d (Status lw))) as ->.
    { unfold endLine, idChunk. by destruct (nonEmpty reqID). }
    apply parseStatus_Sprintf_03d.
  - intros lw' H.
    pose proof (parseStatus_Sprintf_03d (Status lw)) as H1.
    rewrite H, parseStatus_Sprintf_03d in H1. by injection H1.
Qed.

(** ** The start line and the other headers *)

(** X8.  Of all headers, [printStart] reads X-Forwarded-For only: two
    requests that differ in their header maps but agree on that key have
    the same start line; adding, replacing or deleting any other header
    leaves the start line as it was. *)
Theorem start_line_reads_one_header (rt : Runtime) (reqID : string)
    (r : Request) (hdr : gmap string (list string)) :
  hdr !! "X-Forwarded-For" = Header r !! "X-Forwarded-For" ->
  printed (printStart rt reqID (withHeader r hdr)) = printed (printStart rt reqID r) /\
  forall k v,
    k <> "X-Forwarded-For" ->
    printed (printStart rt reqID (withHeader r (<[k:=v]> hdr))) =
      printed (printStart rt reqID r) /\
    printed (printStart rt reqID (withHeader r (delete k hdr))) =
      printed (printStart rt reqID r).
Proof.
  intros Hagree.
  assert (forall hdr' : gmap string (list string),
            hdr' !! "X-Forwarded-For" = Header r !! "X-Forwarded-For" ->
            printed (printStart rt reqID (withHeader r hdr')) =
            printed (printStart rt reqID r)) as Hframe.
  { intros hdr' H. rewrite !printStart_printed.
    unfold startLine, origin, Header_Get, withHeader. cbn [Method URL Header RemoteAddr].
    by rewrite H. }
  split; [by apply Hframe|].
  intros k v Hk. split; apply Hframe.
  - by rewrite lookup_insert_ne.
  - by rewrite lookup_delete_ne.
Qed.

Lemma start_line_reads_one_header_witness :
  let hdr : gmap string (list string) :=
    {[ "X-Forwarded-For" := ["10.0.0.5"]; "User-Agent" := ["curl/8.0"] ]} in
  printed (printStart sampleRuntime "abc123" (withHeader sampleRequest hdr)) =
  printed (printStart sampleRuntime "abc123" sampleRequest).
Proof.
  intros hdr.
  exact (proj1 (start_line_reads_one_header sampleRuntime "abc123" sampleRequest hdr
                  eq_refl)).
Defined.

(** ** Telling requests apart by their ID *)

Lemma str_length_app (a b : string) :
  String.length (a +:+ b) = (String.length a + String.length b)%nat.
Proof.
  induction a as [|x a IH]; [done|].
  change (String x a +:+ b) with (String x (a +:+ b)). cbn. by rewrite IH.
Qed.

Lemma str_app_inv_tail (a b c : string) : a +:+ c = b +:+ c -> a = b.
Proof.
  revert b. induction a as [|x a IH]; intros [|y b] H.
  - reflexivity.
  - apply (f_equal String.length) in H.
    rewrite !str_length_app in H. cbn [String.length] in H. lia.
  - apply (f_equal String.length) in H.
    rewrite !str_length_app in H. cbn [String.length] in H. lia.
  - change (String x (a +:+ c) = String y (b +:+ c)) in H.
    injection H as -> H. f_equal. by apply IH.
Qed.

Lemma idPrefix_inj (X Y : string) : idPrefix X = idPrefix Y -> X = Y.
Proof.
  unfold idPrefix. destruct X as [|x X], Y as [|y Y]; cbn [nonEmpty String.eqb negb];
    intros H; try reflexivity; try discriminate H.
  apply (inj (String.app "[")) in H.
  by apply str_app_inv_tail in H.
Qed.

(** X9.  The request ID can be read off the text of the start line: if
    the start lines printed for one request under two request IDs read
    the same, the two IDs are the same.  Lines of requests with different
    IDs are never confused, even in black and white. *)
Theorem request_id_determined_by_start_line (rt : Runtime) (X Y : string)
    (r : Request) :
  text <$> printed (printStart rt X r) = text <$> printed (printStart rt Y r) ->
  X = Y.
Proof.
  rewrite !printStart_printed. cbn [fmap list_fmap].
  intros [= H]. unfold startLine in H. rewrite !text_app, !idChunk_text in H.
  by apply str_app_inv_tail, idPrefix_inj in H.
Qed.

Lemma request_id_determined_by_start_line_witness :
  text <$> printed (printStart sampleRuntime "abc123" sampleRequest) =
    text <$> printed (printStart sampleRuntime "abc123" sampleRequest) /\
  "abc123" = "abc123".
Proof.
  split; [reflexivity|].
  apply (request_id_determined_by_start_line sampleRuntime "abc123" "abc123"
           sampleRequest eq_refl).
Defined.
